(** * ext-php-rs C shim (src/wrapper.c, src/wrapper.h)

    A shallow embedding of the wrapper functions of the shim and the
    properties its specification states about them.

    The shim is a list of small C functions over the Zend Engine.  Each
    function is embedded as a program of the [prog] monad below: a tree of
    operations whose continuations are Rocq functions.  An operation is
    either a call that leaves the shim (an engine function, a libc function,
    the host callback), whose behaviour is given by an environment [env], or
    one of the few engine macros the shim expands in place (the GC flag
    word of a [zend_string], [zend_try], [zend_bailout]), whose behaviour
    is written out on the [world]. *)

From Stdlib Require Import ZArith List String Ascii Bool Lia.
From stdpp Require Import base option gmap.
Import ListNotations.

Local Open Scope Z_scope.

(** ** C values *)

(** Pointers, [size_t], [int] and [uint32_t] values are integers; the null
    pointer is 0. *)
Definition ptr := Z.
Definition val := Z.
Definition NULL : ptr := 0.

(** Conversion of a scalar to C's [bool] (the [_Bool] of stdbool.h): every
    non-zero value is [true]. *)
Definition to_bool (v : val) : bool := negb (v =? 0).

(** Wrap-around of an unsigned 32-bit word. *)
Definition u32 (v : Z) : Z := v mod 2 ^ 32.

(** ** Build configuration

    The preprocessor symbols tested by [#ifdef] in wrapper.c. *)
Record config : Type := Config {
  ZTS : bool;
  ZEND_ENABLE_STATIC_TSRMLS_CACHE : bool;
  PHP_WIN32 : bool;
  (** [defined(SIGPIPE) && defined(SIG_IGN)] *)
  HAVE_SIGPIPE : bool
}.

(** ** Constants of the engine headers

    wrapper.c takes these from php.h and the headers it includes; they are
    outside the shim, so they are parameters of the development.  The
    addresses of the engine's static objects are link-time constants. *)
Record headers : Type := Headers {
  GC_FLAGS_SHIFT : Z;
  GC_FLAGS_MASK : Z;
  IS_STR_INTERNED : Z;
  IS_STR_VALID_UTF8 : Z;
  SIGPIPE : Z;
  SIG_IGN : Z;
  (** size of a pointer, in bytes *)
  SIZEOF_VOID_P : Z;
  ZEND_MODULE_BUILD_ID : ptr;
  addr_executor_globals : ptr;
  addr_core_globals : ptr;
  addr_sapi_globals : ptr;
  addr_file_globals : ptr;
  addr_sapi_module : ptr
}.

(** ** The state the shim can observe *)

(** A [zend_string]: the [zend_refcounted_h] header ([refcount] and the
    [type_info] word that holds type, flags and GC info), the hash, the
    length and the bytes. *)
Record zend_string : Type := ZendString {
  gc_refcount : Z;
  gc_type_info : Z;
  zs_h : Z;
  zs_len : Z;
  zs_val : list Z
}.

Definition with_type_info (ti : Z) (s : zend_string) : zend_string :=
  {| gc_refcount := gc_refcount s; gc_type_info := ti; zs_h := zs_h s;
     zs_len := zs_len s; zs_val := zs_val s |}.

Record world : Type := World {
  (** the [zend_string] objects, by address *)
  strings : gmap Z zend_string;
  (** pointer-sized memory cells, by address *)
  cells : gmap Z Z;
  (** [EG(bailout) != NULL]: a jump buffer is installed *)
  EG_bailout : bool;
  (** the engine's variables read by the accessors in a ZTS build *)
  executor_globals_offset : Z;
  core_globals_offset : Z;
  sapi_globals_offset : Z;
  file_globals_id : Z;
  (** the static thread-local cache pointer [TSRMLS_CACHE] *)
  TSRMLS_CACHE : ptr;
  (** [SG(request_info).request_method] *)
  SG_request_method : ptr
}.

Definition set_strings (m : gmap Z zend_string) (w : world) : world :=
  {| strings := m; cells := cells w; EG_bailout := EG_bailout w;
     executor_globals_offset := executor_globals_offset w;
     core_globals_offset := core_globals_offset w;
     sapi_globals_offset := sapi_globals_offset w;
     file_globals_id := file_globals_id w;
     TSRMLS_CACHE := TSRMLS_CACHE w;
     SG_request_method := SG_request_method w |}.

Definition set_cells (m : gmap Z Z) (w : world) : world :=
  {| strings := strings w; cells := m; EG_bailout := EG_bailout w;
     executor_globals_offset := executor_globals_offset w;
     core_globals_offset := core_globals_offset w;
     sapi_globals_offset := sapi_globals_offset w;
     file_globals_id := file_globals_id w;
     TSRMLS_CACHE := TSRMLS_CACHE w;
     SG_request_method := SG_request_method w |}.

Definition set_bailout (b : bool) (w : world) : world :=
  {| strings := strings w; cells := cells w; EG_bailout := b;
     executor_globals_offset := executor_globals_offset w;
     core_globals_offset := core_globals_offset w;
     sapi_globals_offset := sapi_globals_offset w;
     file_globals_id := file_globals_id w;
     TSRMLS_CACHE := TSRMLS_CACHE w;
     SG_request_method := SG_request_method w |}.

(** ** Operations *)

(** The C types named as the target of a cast in the macros of TSRM.h: a
    structure type under its typedef name, or a pointer to a type. *)
Inductive ctype : Type :=
| struct_type (name : string)
| pointer_to (t : ctype).

(** Calls that leave the shim.  [call_ptr fn arg] is the indirect call
    [callback(ctx)] through a function pointer of the host. *)
Inductive extcall : Type :=
| zend_string_init (str : ptr) (len : Z) (persistent : bool)
| zend_string_release (zs : ptr)
| zend_object_alloc (obj_size : Z) (ce : ptr)
| zend_object_release (obj : ptr)
| tsrm_get_ls_cache
| php_tsrm_startup
| tsrm_shutdown
| zend_signal_startup
| ts_resource (id : Z)
| ZEND_TSRMLS_CACHE_UPDATE
| php_embed_init (argc : Z) (argv : ptr)
| php_embed_shutdown
| signal (sig : Z) (handler : Z)
| printf (format : string) (args : list val)
| call_ptr (fn : ptr) (arg : ptr).

(** Operations of a shim function: a call, or an access the engine's macros
    expand to. *)
Inductive op : Type :=
| Ext (c : extcall)
(** [GC_TYPE_INFO(zs)] read *)
| load_type_info (zs : ptr)
(** [GC_TYPE_INFO(zs) = v] *)
| store_type_info (zs : ptr) (v : Z)
(** [*addr] read *)
| load (addr : ptr)
(** [*addr = v] *)
| store (addr : ptr) (v : val)
(** read of a variable of the engine *)
| read (x : world -> Z)
(** [(t) p]: the address [p] converted to the type [t] *)
| cast (t : ctype) (p : ptr)
(** [zend_bailout()] *)
| zend_bailout.

(** ** Programs *)

(** [Try first body handler k] is
    [zend_try { body } zend_catch { handler } zend_end_try(); k], with
    [zend_first_try] in place of [zend_try] when [first] holds. *)
Inductive prog (A : Type) : Type :=
| Ret (a : A)
| Do (o : op) (k : val -> prog A)
| Try (B : Type) (first : bool) (body handler : prog B) (k : B -> prog A).

Arguments Ret {A} a.
Arguments Do {A} o k.
Arguments Try {A B} first body handler k.

Fixpoint bind {A B : Type} (p : prog A) (f : A -> prog B) : prog B :=
  match p with
  | Ret a => f a
  | Do o k => Do o (fun v => bind (k v) f)
  | Try first body handler k =>
      Try first body handler (fun b => bind (k b) f)
  end.

Declare Scope prog_scope.
Delimit Scope prog_scope with prog.
Notation "x <- p ;; q" := (bind p (fun x => q))
  (at level 100, p at next level, right associativity) : prog_scope.
Notation "p ;; q" := (bind p (fun _ => q))
  (at level 100, right associativity) : prog_scope.
Local Open Scope prog_scope.

(** A call whose value is used, and a call in statement position. *)
Definition call (c : extcall) : prog val := Do (Ext c) Ret.
Definition call_void (c : extcall) : prog unit := Do (Ext c) (fun _ => Ret tt).

(** ** Running a program *)

Inductive outcome (A : Type) : Type :=
| Normal (a : A) (w : world)
(** a bailout is unwinding towards the enclosing [zend_try] *)
| LongJmp (w : world)
(** the process has exited *)
| Exit (status : Z) (w : world)
(** undefined behaviour: an access through a pointer that is not mapped *)
| Undefined.

Arguments Normal {A} a w.
Arguments LongJmp {A} w.
Arguments Exit {A} status w.
Arguments Undefined {A}.

(** The result of a run: the calls that left the shim, in order, and how
    the run ended. *)
Record result (A : Type) : Type := Result {
  trace : list extcall;
  out : outcome A
}.

Arguments Result {A} trace out.
Arguments trace {A} r.
Arguments out {A} r.

Definition after {A : Type} (t : list extcall) (r : result A) : result A :=
  Result (t ++ trace r) (out r).

(** Sequencing: the rest of the program runs only after a normal end. *)
Definition andthen {A B : Type}
    (r : result A) (f : A -> world -> result B) : result B :=
  match out r with
  | Normal a w => after (trace r) (f a w)
  | LongJmp w => Result (trace r) (LongJmp w)
  | Exit s w => Result (trace r) (Exit s w)
  | Undefined => Result (trace r) Undefined
  end.

(** Modelled from the spec: [zend_try], [zend_catch] and [zend_end_try] are
    macros of the engine (zend.h), not of the shim.  The spec calls them the
    engine's crash-recovery mechanism: a bailout that unwinds out of the
    block opened by [zend_try] arrives at the [zend_catch] block, and any
    other end of the block passes by it. *)
Definition catch {A : Type} (r : result A) (h : world -> result A) : result A :=
  match out r with
  | LongJmp w => after (trace r) (h w)
  | _ => r
  end.

(** Modelled from the spec: the engine function behind [zend_bailout()] is
    not in the sources of the shim.  The spec describes the bailout as the
    engine's longjmp-based mechanism for aborting execution, unwinding past
    normal control flow: the run ends in the jump to the buffer installed
    by the enclosing [zend_try].  With no buffer installed there is nothing
    to jump to, and the engine ends the process with status -1. *)
Definition do_zend_bailout (w : world) : outcome val :=
  if EG_bailout w then LongJmp w else Exit (-1) w.

Definition environment : Type := extcall -> world -> outcome val.

Section Run.

Variable env : environment.

(** One operation: a call is answered by the environment, an access acts
    on the state, and an access through a pointer that is not mapped is
    undefined.  An address converted to a pointer type keeps its value; C
    has no conversion of an address to a structure type, so that cast has
    no result. *)
Definition step (o : op) (w : world) : result val :=
  match o with
  | Ext c => Result [c] (env c w)
  | load_type_info zs =>
      match strings w !! zs with
      | Some s => Result [] (Normal (gc_type_info s) w)
      | None => Result [] Undefined
      end
  | store_type_info zs v =>
      match strings w !! zs with
      | Some s =>
          Result [] (Normal 0 (set_strings (<[zs := with_type_info v s]> (strings w)) w))
      | None => Result [] Undefined
      end
  | load addr =>
      match cells w !! addr with
      | Some v => Result [] (Normal v w)
      | None => Result [] Undefined
      end
  | store addr v =>
      match cells w !! addr with
      | Some _ => Result [] (Normal 0 (set_cells (<[addr := v]> (cells w)) w))
      | None => Result [] Undefined
      end
  | read x => Result [] (Normal (x w) w)
  | cast t p =>
      match t with
      | pointer_to _ => Result [] (Normal p w)
      | struct_type _ => Result [] Undefined
      end
  | zend_bailout => Result [] (do_zend_bailout w)
  end.

(** The run of a program.  Around the block of a [Try], as the macros of
    zend.h do it: [zend_try] saves [EG(bailout)], installs its own buffer
    and runs the body; [zend_catch] and [zend_end_try] put the saved value
    back; [zend_first_try] clears [EG(bailout)] before it saves it. *)
Fixpoint run {A : Type} (p : prog A) (w : world) : result A :=
  match p with
  | Ret a => Result [] (Normal a w)
  | Do o k => andthen (step o w) (fun v w' => run (k v) w')
  | Try first body handler k =>
      let orig := if first then false else EG_bailout w in
      andthen
        (catch (run body (set_bailout true w))
               (fun w' => run handler (set_bailout orig w')))
        (fun b w' => run (k b) (set_bailout orig w'))
  end.

End Run.

(** ** The shim *)

Definition newline : string := String (ascii_of_nat 10) EmptyString.
Definition dquote : string := String (ascii_of_nat 34) EmptyString.

Section Shim.

Variable cfg : config.
Variable hdr : headers.

(** *** Engine macros expanded in the shim

    The bodies are those of the engine headers, which are outside the
    shim, over the constants of [hdr].  zend_types.h:
    [GC_FLAGS(p)] is [zval_gc_flags(GC_TYPE_INFO(p))], with
    [zval_gc_flags(t)] = [(t >> GC_FLAGS_SHIFT) & (GC_FLAGS_MASK >> GC_FLAGS_SHIFT)];
    [GC_ADD_FLAGS(p, flags)] is [GC_TYPE_INFO(p) |= (flags) << GC_FLAGS_SHIFT]
    on the 32-bit word.  zend_string.h: [ZSTR_IS_INTERNED(s)] is
    [GC_FLAGS(s) & IS_STR_INTERNED].  TSRM.h: [TSRMG_FAST_BULK(offset, type)]
    is [tsrm_get_ls_cache()] plus [offset] bytes, cast to [type], and
    [TSRMG_FAST_BULK_STATIC(offset, type)] is the same on the cached
    [TSRMLS_CACHE]. *)

Definition GC_TYPE_INFO (p : ptr) : prog Z := Do (load_type_info p) Ret.

Definition zval_gc_flags (gc_type_info : Z) : Z :=
  Z.land (Z.shiftr gc_type_info (GC_FLAGS_SHIFT hdr))
         (Z.shiftr (GC_FLAGS_MASK hdr) (GC_FLAGS_SHIFT hdr)).

Definition GC_FLAGS (p : ptr) : prog Z :=
  ti <- GC_TYPE_INFO p ;; Ret (zval_gc_flags ti).

Definition GC_ADD_FLAGS (p : ptr) (flags : Z) : prog unit :=
  ti <- GC_TYPE_INFO p ;;
  Do (store_type_info p (u32 (Z.lor ti (Z.shiftl flags (GC_FLAGS_SHIFT hdr)))))
     (fun _ => Ret tt).

Definition ZSTR_IS_INTERNED (s : ptr) : prog Z :=
  f <- GC_FLAGS s ;; Ret (Z.land f (IS_STR_INTERNED hdr)).

Definition TSRMG_FAST_BULK_STATIC (offset : world -> Z) (type : ctype)
    : prog ptr :=
  c <- Do (read TSRMLS_CACHE) Ret ;;
  o <- Do (read offset) Ret ;;
  Do (cast type (c + o)) Ret.

Definition TSRMG_FAST_BULK (offset : world -> Z) (type : ctype) : prog ptr :=
  c <- call tsrm_get_ls_cache ;;
  o <- Do (read offset) Ret ;;
  Do (cast type (c + o)) Ret.

Definition zend_try {B : Type} (body handler : prog B) : prog B :=
  Try false body handler Ret.

Definition zend_first_try {B : Type} (body handler : prog B) : prog B :=
  Try true body handler Ret.

(** *** wrapper.c *)

Definition ext_php_rs_zend_string_init
    (str : ptr) (len : Z) (persistent : bool) : prog ptr :=
  call (zend_string_init str len persistent).

Definition ext_php_rs_zend_string_release (zs : ptr) : prog unit :=
  call_void (zend_string_release zs).

Definition ext_php_rs_is_known_valid_utf8 (zs : ptr) : prog bool :=
  f <- GC_FLAGS zs ;;
  Ret (to_bool (Z.land f (IS_STR_VALID_UTF8 hdr))).

Definition ext_php_rs_set_known_valid_utf8 (zs : ptr) : prog unit :=
  i <- ZSTR_IS_INTERNED zs ;;
  if negb (to_bool i)
  then GC_ADD_FLAGS zs (IS_STR_VALID_UTF8 hdr)
  else Ret tt.

Definition ext_php_rs_php_build_id : prog ptr :=
  Ret (ZEND_MODULE_BUILD_ID hdr).

Definition ext_php_rs_zend_object_alloc (obj_size : Z) (ce : ptr) : prog ptr :=
  call (zend_object_alloc obj_size ce).

Definition ext_php_rs_zend_object_release (obj : ptr) : prog unit :=
  call_void (zend_object_release obj).

Definition ext_php_rs_executor_globals : prog ptr :=
  if ZTS cfg then
    if ZEND_ENABLE_STATIC_TSRMLS_CACHE cfg
    then TSRMG_FAST_BULK_STATIC executor_globals_offset (struct_type "zend_executor_globals")
    else TSRMG_FAST_BULK executor_globals_offset (pointer_to (struct_type "zend_executor_globals"))
  else Ret (addr_executor_globals hdr).

Definition ext_php_rs_process_globals : prog ptr :=
  if ZTS cfg then
    if ZEND_ENABLE_STATIC_TSRMLS_CACHE cfg
    then TSRMG_FAST_BULK_STATIC core_globals_offset (struct_type "php_core_globals")
    else TSRMG_FAST_BULK core_globals_offset (pointer_to (struct_type "php_core_globals"))
  else Ret (addr_core_globals hdr).

Definition ext_php_rs_sapi_globals : prog ptr :=
  if ZTS cfg then
    if ZEND_ENABLE_STATIC_TSRMLS_CACHE cfg
    then TSRMG_FAST_BULK_STATIC sapi_globals_offset (struct_type "sapi_globals_struct")
    else TSRMG_FAST_BULK sapi_globals_offset (pointer_to (struct_type "sapi_globals_struct"))
  else Ret (addr_sapi_globals hdr).

Definition ext_php_rs_file_globals : prog ptr :=
  if ZTS cfg
  then TSRMG_FAST_BULK file_globals_id
         (pointer_to (struct_type "php_file_globals"))
  else Ret (addr_file_globals hdr).

Definition ext_php_rs_sapi_module : prog ptr :=
  Ret (addr_sapi_module hdr).

(** The blocks of the two adapters yield [Some b] when they leave the
    function with [return b] and [None] when control falls through to
    the statement after [zend_end_try()]. *)
Definition ext_php_rs_zend_try_catch (callback ctx result : ptr) : prog bool :=
  ret <- zend_try
           (r <- call (call_ptr callback ctx) ;;
            Do (store result r) (fun _ => Ret None))
           (Ret (Some true)) ;;
  match ret with
  | Some b => Ret b
  | None => Ret false
  end.

Definition ext_php_rs_zend_first_try_catch (callback ctx result : ptr) : prog bool :=
  ret <- zend_first_try
           (r <- call (call_ptr callback ctx) ;;
            Do (store result r) (fun _ => Ret None))
           (Ret (Some true)) ;;
  match ret with
  | Some b => Ret b
  | None => Ret false
  end.

Definition ext_php_rs_zend_bailout : prog unit :=
  Do zend_bailout (fun _ => Ret tt).

(** [PHP_EMBED_START_BLOCK] is [php_embed_init] followed by the opening
    of a [zend_first_try]; [PHP_EMBED_END_BLOCK] closes it with an empty
    [zend_catch] and calls [php_embed_shutdown].  The local [result]
    keeps its initial [NULL] when the block is left by a bailout. *)
Definition ext_php_rs_embed_callback
    (argc : Z) (argv : ptr) (callback ctx : ptr) : prog ptr :=
  call_void (php_embed_init argc argv) ;;
  result <- zend_first_try (call (call_ptr callback ctx)) (Ret NULL) ;;
  call_void php_embed_shutdown ;;
  Ret result.

Definition ext_php_rs_sapi_startup : prog unit :=
  (if HAVE_SIGPIPE cfg
   then call_void (signal (SIGPIPE hdr) (SIG_IGN hdr))
   else Ret tt) ;;
  (if ZTS cfg
   then call_void php_tsrm_startup ;;
        (if PHP_WIN32 cfg then call_void ZEND_TSRMLS_CACHE_UPDATE else Ret tt)
   else Ret tt) ;;
  call_void zend_signal_startup.

Definition ext_php_rs_sapi_shutdown : prog unit :=
  if ZTS cfg then call_void tsrm_shutdown else Ret tt.

Definition ext_php_rs_sapi_per_thread_init : prog unit :=
  if ZTS cfg
  then call_void (ts_resource 0) ;;
       (if PHP_WIN32 cfg then call_void ZEND_TSRMLS_CACHE_UPDATE else Ret tt)
  else Ret tt.

Definition ext_php_rs_sapi_check_sg : prog unit :=
  request_method <- Do (read SG_request_method) Ret ;;
  if request_method =? NULL
  then call_void (printf ("SG(request_info).request_method: NULL" ++ newline) [])
  else call_void (printf ("SG(request_info).request_method: " ++ dquote ++ "%s"
                            ++ dquote ++ newline) [request_method]).

End Shim.

(** ** The export table *)

Inductive export_name : Type :=
| exp_zend_string_init
| exp_zend_string_release
| exp_is_known_valid_utf8
| exp_set_known_valid_utf8
| exp_php_build_id
| exp_zend_object_alloc
| exp_zend_object_release
| exp_executor_globals
| exp_process_globals
| exp_sapi_globals
| exp_file_globals
| exp_sapi_module
| exp_zend_try_catch
| exp_zend_first_try_catch
| exp_zend_bailout
| exp_embed_callback
| exp_sapi_startup
| exp_sapi_shutdown
| exp_sapi_per_thread_init
| exp_sapi_check_sg.

(** [exported cfg hdr n p]: [p] is a call of the function declared under the
    name [n] in wrapper.h, at some arguments. *)
Inductive exported (cfg : config) (hdr : headers) :
    export_name -> forall A : Type, prog A -> Prop :=
| exported_zend_string_init str len persistent :
    exported cfg hdr exp_zend_string_init _
      (ext_php_rs_zend_string_init str len persistent)
| exported_zend_string_release zs :
    exported cfg hdr exp_zend_string_release _ (ext_php_rs_zend_string_release zs)
| exported_is_known_valid_utf8 zs :
    exported cfg hdr exp_is_known_valid_utf8 _ (ext_php_rs_is_known_valid_utf8 hdr zs)
| exported_set_known_valid_utf8 zs :
    exported cfg hdr exp_set_known_valid_utf8 _ (ext_php_rs_set_known_valid_utf8 hdr zs)
| exported_php_build_id :
    exported cfg hdr exp_php_build_id _ (ext_php_rs_php_build_id hdr)
| exported_zend_object_alloc obj_size ce :
    exported cfg hdr exp_zend_object_alloc _ (ext_php_rs_zend_object_alloc obj_size ce)
| exported_zend_object_release obj :
    exported cfg hdr exp_zend_object_release _ (ext_php_rs_zend_object_release obj)
| exported_executor_globals :
    exported cfg hdr exp_executor_globals _ (ext_php_rs_executor_globals cfg hdr)
| exported_process_globals :
    exported cfg hdr exp_process_globals _ (ext_php_rs_process_globals cfg hdr)
| exported_sapi_globals :
    exported cfg hdr exp_sapi_globals _ (ext_php_rs_sapi_globals cfg hdr)
| exported_file_globals :
    exported cfg hdr exp_file_globals _ (ext_php_rs_file_globals cfg hdr)
| exported_sapi_module :
    exported cfg hdr exp_sapi_module _ (ext_php_rs_sapi_module hdr)
| exported_zend_try_catch callback ctx result :
    exported cfg hdr exp_zend_try_catch _
      (ext_php_rs_zend_try_catch callback ctx result)
| exported_zend_first_try_catch callback ctx result :
    exported cfg hdr exp_zend_first_try_catch _
      (ext_php_rs_zend_first_try_catch callback ctx result)
| exported_zend_bailout :
    exported cfg hdr exp_zend_bailout _ ext_php_rs_zend_bailout
| exported_embed_callback argc argv callback ctx :
    exported cfg hdr exp_embed_callback _
      (ext_php_rs_embed_callback argc argv callback ctx)
| exported_sapi_startup :
    exported cfg hdr exp_sapi_startup _ (ext_php_rs_sapi_startup cfg hdr)
| exported_sapi_shutdown :
    exported cfg hdr exp_sapi_shutdown _ (ext_php_rs_sapi_shutdown cfg)
| exported_sapi_per_thread_init :
    exported cfg hdr exp_sapi_per_thread_init _ (ext_php_rs_sapi_per_thread_init cfg)
| exported_sapi_check_sg :
    exported cfg hdr exp_sapi_check_sg _ ext_php_rs_sapi_check_sg.

(** ** Shapes of programs *)

(** An operation without its run-time operands: the callee and what the
    source fixes (which variable is read, the format of a [printf] and the
    number of its arguments) stay. *)
Definition erase (o : op) : op :=
  match o with
  | Ext (zend_string_init _ _ _) => Ext (zend_string_init 0 0 false)
  | Ext (zend_string_release _) => Ext (zend_string_release 0)
  | Ext (zend_object_alloc _ _) => Ext (zend_object_alloc 0 0)
  | Ext (zend_object_release _) => Ext (zend_object_release 0)
  | Ext (ts_resource _) => Ext (ts_resource 0)
  | Ext (php_embed_init _ _) => Ext (php_embed_init 0 0)
  | Ext (signal _ _) => Ext (signal 0 0)
  | Ext (printf format args) => Ext (printf format (map (fun _ => 0) args))
  | Ext (call_ptr _ _) => Ext (call_ptr 0 0)
  | Ext c => Ext c
  | load_type_info _ => load_type_info 0
  | store_type_info _ _ => store_type_info 0 0
  | load _ => load 0
  | store _ _ => store 0 0
  | read x => read x
  | cast t _ => cast t 0
  | zend_bailout => zend_bailout
  end.

(** Two programs perform the same operations in the same order, whatever
    values the operations return. *)
Fixpoint same_shape {A B : Type} (p : prog A) (q : prog B) : Prop :=
  match p, q with
  | Ret _, Ret _ => True
  | Do o k, Do o' k' =>
      erase o = erase o' /\ forall v v', same_shape (k v) (k' v')
  | Try first body handler k, Try first' body' handler' k' =>
      first = first' /\ same_shape body body' /\ same_shape handler handler'
      /\ forall b b', same_shape (k b) (k' b')
  | _, _ => False
  end.


Definition is_output (o : op) : bool :=
  match o with
  | Ext (printf _ _) => true
  | _ => false
  end.

(** A program that prints nothing. *)
Fixpoint silent {A : Type} (p : prog A) : Prop :=
  match p with
  | Ret _ => True
  | Do o k => is_output o = false /\ forall v, silent (k v)
  | Try _ body handler k =>
      silent body /\ silent handler /\ forall b, silent (k b)
  end.


(** ** Auxiliary notions for the statements *)

(** The outcome of a call in statement position: the value is dropped. *)
Definition void {A : Type} (o : outcome A) : outcome unit :=
  match o with
  | Normal _ w => Normal tt w
  | LongJmp w => LongJmp w
  | Exit s w => Exit s w
  | Undefined => Undefined
  end.

(** The calls of a list made one after the other, each value dropped; the
    first call that does not return ends the run. *)
Fixpoint call_in_order (env : environment) (cs : list extcall) (w : world)
    : result unit :=
  match cs with
  | [] => Result [] (Normal tt w)
  | c :: cs' =>
      andthen (Result [c] (env c w)) (fun _ w' => call_in_order env cs' w')
  end.

Definition returns_normally (env : environment) (c : extcall) : Prop :=
  forall w, exists v w', env c w = Normal v w'.

(** The routines of [ext_php_rs_sapi_startup], by build. *)
Definition startup_sequence (cfg : config) (hdr : headers) : list extcall :=
  (if HAVE_SIGPIPE cfg then [signal (SIGPIPE hdr) (SIG_IGN hdr)] else [])
  ++ (if ZTS cfg then [php_tsrm_startup] else [])
  ++ (if ZTS cfg && PHP_WIN32 cfg then [ZEND_TSRMLS_CACHE_UPDATE] else [])
  ++ [zend_signal_startup].

(** The flag constant [flag] is the single bit [k] of the flag field of
    [type_info], and that field lies inside the 32-bit word. *)
Record flag_bit (hdr : headers) (flag : Z) (k : Z) : Prop := FlagBit {
  flag_is_bit : flag = 2 ^ k;
  flag_index : 0 <= k;
  flag_shift : 0 <= GC_FLAGS_SHIFT hdr;
  flag_in_word : k + GC_FLAGS_SHIFT hdr < 32;
  flag_in_mask : Z.testbit (GC_FLAGS_MASK hdr) (k + GC_FLAGS_SHIFT hdr) = true
}.

(** [ZSTR_IS_INTERNED] on the header word of a string. *)
Definition interned (hdr : headers) (s : zend_string) : bool :=
  to_bool (Z.land (zval_gc_flags hdr (gc_type_info s)) (IS_STR_INTERNED hdr)).

(** ** The engine's path to the file globals (TSRM.h, ext/standard/file.h)

    In a ZTS build the engine allocates the file globals with
    [ts_allocate_id], which hands out a resource id, and reaches them as
    [FG(v)], that is [TSRMG_BULK(file_globals_id, php_file_globals * )->v]:
    entry [id - 1] of the table of blocks that the thread's TSRM entry
    starts with. *)

Definition TSRM_UNSHUFFLE_RSRC_ID (rsrc_id : Z) : Z := rsrc_id - 1.

Definition TSRMG_BULK (hdr : headers) (id : world -> Z) (type : ctype)
    : prog ptr :=
  c <- call tsrm_get_ls_cache ;;
  storage <- Do (load c) Ret ;;
  i <- Do (read id) Ret ;;
  block <- Do (load (storage + SIZEOF_VOID_P hdr * TSRM_UNSHUFFLE_RSRC_ID i)) Ret ;;
  Do (cast type block) Ret.

(** ** Sample data *)

(** The constants of PHP 8 on a 64-bit Linux: zend_types.h gives
    [GC_FLAGS_SHIFT] 0, [GC_FLAGS_MASK] 0x3f0, [IS_STR_INTERNED] (1<<6) and
    [IS_STR_VALID_UTF8] (1<<9); signal.h gives [SIGPIPE] 13 and [SIG_IGN] 1.
    The addresses are arbitrary. *)
Definition php_headers : headers := {|
  GC_FLAGS_SHIFT := 0;
  GC_FLAGS_MASK := 1008;
  IS_STR_INTERNED := 64;
  IS_STR_VALID_UTF8 := 512;
  SIGPIPE := 13;
  SIG_IGN := 1;
  SIZEOF_VOID_P := 8;
  ZEND_MODULE_BUILD_ID := 65536;
  addr_executor_globals := 69632;
  addr_core_globals := 73728;
  addr_sapi_globals := 77824;
  addr_file_globals := 81920;
  addr_sapi_module := 86016
|}.

Definition zts_build : config :=
  {| ZTS := true; ZEND_ENABLE_STATIC_TSRMLS_CACHE := false;
     PHP_WIN32 := false; HAVE_SIGPIPE := true |}.

Definition nts_build : config :=
  {| ZTS := false; ZEND_ENABLE_STATIC_TSRMLS_CACHE := false;
     PHP_WIN32 := false; HAVE_SIGPIPE := true |}.

(** An interned string (type [IS_STRING] = 6 with flag bit 6) and a string
    owned by the caller (type 6 with [GC_NOT_COLLECTABLE], bit 4). *)
Definition interned_string : zend_string :=
  {| gc_refcount := 1; gc_type_info := 70; zs_h := 0; zs_len := 2;
     zs_val := [104; 105] |}.

Definition plain_string : zend_string :=
  {| gc_refcount := 1; gc_type_info := 22; zs_h := 0; zs_len := 2;
     zs_val := [111; 107] |}.

(** A thread whose TSRM entry is at 4096 and starts with the address 8192
    of its table of blocks; entry 5 of the table is the block at 20480 of
    the resource with id 6, the file globals.  The cell at 256 is a result
    slot of a caller, holding 7. *)
Definition sample_world : world := {|
  strings := <[16 := interned_string]> (<[48 := plain_string]> ∅);
  cells := <[256 := 7]> (<[4096 := 8192]> (<[8232 := 20480]> ∅));
  EG_bailout := false;
  executor_globals_offset := 64;
  core_globals_offset := 1024;
  sapi_globals_offset := 2048;
  file_globals_id := 6;
  TSRMLS_CACHE := 4096;
  SG_request_method := NULL
|}.

(** An environment: the function at address 1 returns its argument plus
    one, every other function pointer bails out as [zend_bailout] does,
    [tsrm_get_ls_cache] returns the entry of the thread and every other
    routine returns 0. *)
Definition sample_env : environment := fun c w =>
  match c with
  | tsrm_get_ls_cache => Normal 4096 w
  | call_ptr fn arg =>
      if fn =? 1 then Normal (arg + 1) w
      else do_zend_bailout w
  | _ => Normal 0 w
  end.

(** ** The two adapters as one family *)

(** Both adapters are the same program up to the flavour of the opening
    macro. *)
Definition adapter (first : bool) (callback ctx result : ptr) : prog bool :=
  if first
  then ext_php_rs_zend_first_try_catch callback ctx result
  else ext_php_rs_zend_try_catch callback ctx result.

(** [EG(bailout)] as the adapter leaves it: the value saved on entry. *)
Definition saved_bailout (first : bool) (w : world) : bool :=
  if first then false else EG_bailout w.

(** ** Further notions for the statements *)

(** The routines of [ext_php_rs_sapi_per_thread_init] and of
    [ext_php_rs_sapi_shutdown], by build. *)
Definition per_thread_sequence (cfg : config) : list extcall :=
  (if ZTS cfg then [ts_resource 0] else [])
  ++ (if ZTS cfg && PHP_WIN32 cfg then [ZEND_TSRMLS_CACHE_UPDATE] else []).

Definition shutdown_sequence (cfg : config) : list extcall :=
  if ZTS cfg then [tsrm_shutdown] else [].

Definition is_printf (c : extcall) : bool :=
  match c with
  | printf _ _ => true
  | _ => false
  end.

(** The value a run hands back, when it returns. *)
Definition value_of {A : Type} (o : outcome A) : option A :=
  match o with
  | Normal a _ => Some a
  | _ => None
  end.

(** The function of the host called by [c] ends as the program [p] ends,
    in every state; the value it returns is left open. *)
Definition behaves_as {A : Type}
    (env : environment) (c : extcall) (p : prog A) : Prop :=
  forall w, void (env c w) = void (out (run env p w)).

(** An environment with a host function at address 3 that calls back into
    the shim: it runs [ext_php_rs_zend_try_catch] on the function at 2, with
    the result slot at 256, and returns the flag it gets as an integer. *)
Definition nested_env : environment := fun c w =>
  match c with
  | call_ptr fn arg =>
      if fn =? 3 then
        match out (run sample_env (ext_php_rs_zend_try_catch 2 arg 256) w) with
        | Normal b w' => Normal (if b then 1 else 0) w'
        | LongJmp w' => LongJmp w'
        | Exit s w' => Exit s w'
        | Undefined => Undefined
        end
      else sample_env c w
  | _ => sample_env c w
  end.

(** The exported functions that only look something up: the flag query,
    the build id and the pointers to the engine's structures. *)
Definition accessor (n : export_name) : bool :=
  match n with
  | exp_is_known_valid_utf8 | exp_php_build_id
  | exp_executor_globals | exp_process_globals | exp_sapi_globals
  | exp_file_globals | exp_sapi_module => true
  | _ => false
  end.

(** ** The exported functions and the engine primitives behind them *)





(** The routines of a list called one after the other, each value
    dropped. *)
Fixpoint calls (cs : list extcall) : prog unit :=
  match cs with
  | [] => Ret tt
  | c :: cs' => Do (Ext c) (fun _ => calls cs')
  end.





(** A call through a function pointer of the host. *)
Definition is_callback (c : extcall) : bool :=
  match c with
  | call_ptr _ _ => true
  | _ => false
  end.


(** [sample_world] during a request whose method string is at 12288. *)
Definition request_world : world := {|
  strings := strings sample_world;
  cells := cells sample_world;
  EG_bailout := false;
  executor_globals_offset := 64;
  core_globals_offset := 1024;
  sapi_globals_offset := 2048;
  file_globals_id := 6;
  TSRMLS_CACHE := 4096;
  SG_request_method := 12288
|}.

(** ** Proof automation for shapes *)

Ltac shape_step :=
  match goal with
  | |- True => exact I
  | |- _ /\ _ => split
  | |- @eq op _ _ => reflexivity
  | |- @eq bool _ _ => reflexivity
  | |- forall _ : option _, _ => intros [?|]
  | |- forall _, _ => intro
  | |- same_shape _ _ => progress cbn
  | |- silent _ => progress cbn
  end.


(** * Properties *)

(** ** Running programs *)

Lemma after_nil {A : Type} (r : result A) : after [] r = r.
Proof. now destruct r. Qed.

Lemma andthen_ext {A B : Type} (r : result A) (f g : A -> world -> result B) :
  (forall a w, f a w = g a w) -> andthen r f = andthen r g.
Proof.
  intros Hfg. unfold andthen. destruct (out r); try reflexivity.
  now rewrite Hfg.
Qed.

Lemma andthen_after {A B : Type} t (r : result A) (f : A -> world -> result B) :
  andthen (after t r) f = after t (andthen r f).
Proof.
  unfold andthen, after; cbn.
  destruct (out r); cbn; try reflexivity.
  now rewrite app_assoc.
Qed.

Lemma andthen_assoc {A B C : Type} (r : result A)
    (f : A -> world -> result B) (g : B -> world -> result C) :
  andthen (andthen r f) g = andthen r (fun a w => andthen (f a w) g).
Proof.
  unfold andthen at 2 3.
  destruct (out r); try reflexivity.
  apply andthen_after.
Qed.

Lemma andthen_normal {A B : Type} t (a : A) w (f : A -> world -> result B) :
  andthen (Result t (Normal a w)) f = after t (f a w).
Proof. reflexivity. Qed.

Section RunFacts.

Variable env : environment.

Lemma run_bind {A B : Type} (p : prog A) (f : A -> prog B) (w : world) :
  run env (x <- p ;; f x) w = andthen (run env p w) (fun a w' => run env (f a) w').
Proof.
  revert B f w.
  induction p as [A a | A o k IH | A C first body IHb handler IHh k IH];
    intros B f w.
  - cbn. now rewrite after_nil.
  - cbn. rewrite andthen_assoc. apply andthen_ext. intros; apply IH.
  - cbn. rewrite andthen_assoc. apply andthen_ext. intros; apply IH.
Qed.

Lemma run_call (c : extcall) (w : world) :
  run env (call c) w = Result [c] (env c w).
Proof. cbn. unfold andthen; cbn. now destruct (env c w). Qed.

Lemma run_call_void (c : extcall) (w : world) :
  run env (call_void c) w = Result [c] (void (env c w)).
Proof. cbn. unfold andthen; cbn. now destruct (env c w). Qed.

End RunFacts.

(** ** Calls made in order *)

Lemma call_in_order_prefix (env : environment) (cs : list extcall) (w : world) :
  exists rest, cs = trace (call_in_order env cs w) ++ rest.
Proof.
  revert w. induction cs as [| c cs IH]; intros w.
  - now exists [].
  - cbn. unfold andthen; cbn. destruct (env c w) as [v w' | w' | s w' | ]; cbn.
    + destruct (IH w') as [rest Hrest]. exists rest. now rewrite <- Hrest.
    + now exists cs.
    + now exists cs.
    + now exists cs.
Qed.

Lemma call_in_order_all_normal (env : environment) (cs : list extcall) (w : world) :
  Forall (returns_normally env) cs ->
  trace (call_in_order env cs w) = cs
  /\ exists w', out (call_in_order env cs w) = Normal tt w'.
Proof.
  intros Hall. revert w. induction Hall as [| c cs Hc _ IH]; intros w.
  - split; [reflexivity | now exists w].
  - destruct (Hc w) as (v & w' & Hcall).
    cbn. unfold andthen; cbn. rewrite Hcall; cbn.
    destruct (IH w') as [Htrace Hout]. now rewrite Htrace.
Qed.

Lemma startup_sequence_NoDup (cfg : config) (hdr : headers) :
  NoDup (startup_sequence cfg hdr).
Proof.
  unfold startup_sequence.
  apply NoDup_ListNoDup.
  destruct (HAVE_SIGPIPE cfg), (ZTS cfg), (PHP_WIN32 cfg); cbn;
    repeat (constructor; [cbn; intuition discriminate |]); constructor.
Qed.

(** ** The one-line forwards *)

(** C3. The string and object lifecycle wrappers are one-line forwards:
    for every environment, state and arguments the run of each wrapper makes
    the one call of the engine function at the same arguments, and ends as
    that call ends: [ext_php_rs_zend_string_init] and
    [ext_php_rs_zend_object_alloc] return the value the engine returns, and
    [ext_php_rs_zend_string_release] and [ext_php_rs_zend_object_release]
    perform the engine's release and nothing else. *)
Theorem lifecycle_wrappers_forward (env : environment) (w : world) :
  (forall str len persistent,
      run env (ext_php_rs_zend_string_init str len persistent) w
      = Result [zend_string_init str len persistent]
               (env (zend_string_init str len persistent) w))
  /\ (forall zs,
      run env (ext_php_rs_zend_string_release zs) w
      = Result [zend_string_release zs] (void (env (zend_string_release zs) w)))
  /\ (forall obj_size ce,
      run env (ext_php_rs_zend_object_alloc obj_size ce) w
      = Result [zend_object_alloc obj_size ce]
               (env (zend_object_alloc obj_size ce) w))
  /\ (forall obj,
      run env (ext_php_rs_zend_object_release obj) w
      = Result [zend_object_release obj] (void (env (zend_object_release obj) w))).
Proof.
  repeat split; intros.
  - apply run_call.
  - apply run_call_void.
  - apply run_call.
  - apply run_call_void.
Qed.

(** ** Bailout *)

(** C6. [ext_php_rs_zend_bailout] forwards to [zend_bailout]: the run ends
    in the jump to the installed buffer, or in the exit of the process when
    no buffer is installed, and never returns normally to its caller. *)
Theorem zend_bailout_never_returns (env : environment) (w : world) :
  run env ext_php_rs_zend_bailout w
  = Result [] (if EG_bailout w then LongJmp w else Exit (-1) w)
  /\ forall a w', out (run env ext_php_rs_zend_bailout w) <> Normal a w'.
Proof.
  assert (Hrun : run env ext_php_rs_zend_bailout w
                 = Result [] (if EG_bailout w then LongJmp w else Exit (-1) w)).
  { cbn. unfold andthen, do_zend_bailout. now destruct (EG_bailout w). }
  split; [exact Hrun |].
  intros a w'. rewrite Hrun. cbn. now destruct (EG_bailout w).
Qed.

(** ** SAPI lifecycle *)

(** C5. [ext_php_rs_sapi_startup] performs the initialization routines in a
    fixed order on every call: the run is the run of the calls of
    [startup_sequence] (ignore SIGPIPE when defined, then under ZTS
    [php_tsrm_startup] and on Windows the TSRMLS cache update, then
    [zend_signal_startup]) one after the other with every returned value
    dropped; no routine occurs twice, the calls made are always an initial
    part of the sequence, and they are the whole sequence when every routine
    returns. *)
Theorem sapi_startup_fixed_order
    (env : environment) (cfg : config) (hdr : headers) (w : world) :
  run env (ext_php_rs_sapi_startup cfg hdr) w
  = call_in_order env (startup_sequence cfg hdr) w
  /\ NoDup (startup_sequence cfg hdr)
  /\ (exists rest,
        startup_sequence cfg hdr
        = trace (run env (ext_php_rs_sapi_startup cfg hdr) w) ++ rest)
  /\ (Forall (returns_normally env) (startup_sequence cfg hdr) ->
      trace (run env (ext_php_rs_sapi_startup cfg hdr) w) = startup_sequence cfg hdr
      /\ exists w', out (run env (ext_php_rs_sapi_startup cfg hdr) w) = Normal tt w').
Proof.
  assert (Hrun : run env (ext_php_rs_sapi_startup cfg hdr) w
                 = call_in_order env (startup_sequence cfg hdr) w).
  { unfold ext_php_rs_sapi_startup, startup_sequence.
    destruct (HAVE_SIGPIPE cfg), (ZTS cfg), (PHP_WIN32 cfg); cbn;
      repeat (apply andthen_ext; intros); reflexivity. }
  split; [exact Hrun |].
  split; [apply startup_sequence_NoDup |].
  rewrite Hrun. split.
  - apply call_in_order_prefix.
  - apply call_in_order_all_normal.
Qed.

(** C7. [ext_php_rs_sapi_shutdown] performs only the engine's shutdown
    routine: in a ZTS build the run is the one call of [tsrm_shutdown] and
    ends as that call ends, and in a non-ZTS build it makes no call and
    returns in the state it started in. *)
Theorem sapi_shutdown_only_tsrm_shutdown
    (env : environment) (cfg : config) (w : world) :
  (ZTS cfg = true ->
     run env (ext_php_rs_sapi_shutdown cfg) w
     = Result [tsrm_shutdown] (void (env tsrm_shutdown w)))
  /\ (ZTS cfg = false ->
     run env (ext_php_rs_sapi_shutdown cfg) w = Result [] (Normal tt w)).
Proof.
  unfold ext_php_rs_sapi_shutdown. split; intros ->.
  - apply run_call_void.
  - reflexivity.
Qed.

(** ** The try/catch adapters *)

Lemma run_adapter (env : environment) (first : bool)
    (callback ctx result : ptr) (w : world) :
  run env (adapter first callback ctx result) w
  = Result [call_ptr callback ctx]
      match env (call_ptr callback ctx) (set_bailout true w) with
      | Normal v w2 =>
          match cells w2 !! result with
          | Some _ =>
              Normal false
                (set_bailout (saved_bailout first w)
                   (set_cells (<[result := v]> (cells w2)) w2))
          | None => Undefined
          end
      | LongJmp w2 => Normal true (set_bailout (saved_bailout first w) w2)
      | Exit s w2 => Exit s w2
      | Undefined => Undefined
      end.
Proof.
  destruct first; cbn;
    unfold andthen, catch; cbn;
    (destruct (env (call_ptr callback ctx) (set_bailout true w))
       as [v w2 | w2 | s w2 |]; cbn; try reflexivity;
     destruct (cells w2 !! result); reflexivity).
Qed.

(** C2. [ext_php_rs_zend_try_catch] and [ext_php_rs_zend_first_try_catch]
    run the callback under [zend_try]/[zend_catch], that is with a jump
    buffer installed: when the callback returns normally with a value, the
    adapter stores that value into [*result] and returns [false]; when the
    callback bails out, the adapter returns [true].  In both cases the one
    call that leaves the shim is the call of the callback, and [EG(bailout)]
    is put back to the value saved on entry. *)
Theorem try_catch_adapters (env : environment) (first : bool)
    (callback ctx result : ptr) (w : world) :
  (forall v w2,
      env (call_ptr callback ctx) (set_bailout true w) = Normal v w2 ->
      is_Some (cells w2 !! result) ->
      exists wf,
        run env (adapter first callback ctx result) w
        = Result [call_ptr callback ctx] (Normal false wf)
        /\ wf = set_bailout (saved_bailout first w)
                  (set_cells (<[result := v]> (cells w2)) w2)
        /\ cells wf !! result = Some v)
  /\ (forall w2,
      env (call_ptr callback ctx) (set_bailout true w) = LongJmp w2 ->
      run env (adapter first callback ctx result) w
      = Result [call_ptr callback ctx]
               (Normal true (set_bailout (saved_bailout first w) w2))).
Proof.
  split.
  - intros v w2 Hcall [old Hold].
    eexists. rewrite run_adapter, Hcall, Hold.
    split; [reflexivity |]. split; [reflexivity |].
    cbn. apply lookup_insert_eq.
  - intros w2 Hcall. now rewrite run_adapter, Hcall.
Qed.



(** ** The UTF-8 flag of a string *)

Lemma to_bool_land_pow2 (x k : Z) :
  0 <= k -> to_bool (Z.land x (2 ^ k)) = Z.testbit x k.
Proof.
  intros Hk. unfold to_bool.
  destruct (Z.testbit x k) eqn:Hbit.
  - apply negb_true_iff, Z.eqb_neq. intros Hzero.
    assert (Hk' : Z.testbit (Z.land x (2 ^ k)) k = true).
    { now rewrite Z.land_spec, Hbit, Z.pow2_bits_true. }
    rewrite Hzero, Z.bits_0 in Hk'. discriminate.
  - apply negb_false_iff, Z.eqb_eq. apply Z.bits_inj'. intros n Hn.
    rewrite Z.land_spec, Z.bits_0, Z.pow2_bits_eqb by assumption.
    destruct (Z.eqb_spec k n) as [-> | _].
    + now rewrite Hbit.
    + apply andb_false_r.
Qed.

Lemma u32_testbit (x i : Z) :
  Z.testbit (u32 x) i = (i <? 32) && Z.testbit x i.
Proof.
  unfold u32. destruct (Z.ltb_spec i 32) as [Hlt | Hge]; cbn.
  - destruct (Z.neg_nonneg_cases i) as [Hneg | Hpos].
    + now rewrite !Z.testbit_neg_r.
    + now apply Z.mod_pow2_bits_low.
  - apply Z.mod_pow2_bits_high. lia.
Qed.

Lemma u32_small (x : Z) : 0 <= x < 2 ^ 32 -> u32 x = x.
Proof. intros Hx. unfold u32. now apply Z.mod_small. Qed.

Lemma testbit_above_u32 (x i : Z) :
  0 <= x < 2 ^ 32 -> 32 <= i -> Z.testbit x i = false.
Proof.
  intros Hx Hi. rewrite <- (u32_small x Hx), u32_testbit.
  destruct (Z.ltb_spec i 32); [lia | reflexivity].
Qed.

Section FlagBit.

Variable hdr : headers.
Variable k : Z.
Hypothesis Hflag : flag_bit hdr (IS_STR_VALID_UTF8 hdr) k.

Let shift := GC_FLAGS_SHIFT hdr.

(** The word written by [GC_ADD_FLAGS(zs, IS_STR_VALID_UTF8)]. *)
Lemma add_flag_word (ti : Z) :
  0 <= ti < 2 ^ 32 ->
  u32 (Z.lor ti (Z.shiftl (IS_STR_VALID_UTF8 hdr) shift))
  = Z.lor ti (2 ^ (k + shift)).
Proof.
  intros Hti. destruct Hflag as [-> Hk Hs Hw _]. fold shift in Hs, Hw.
  rewrite Z.shiftl_mul_pow2, <- Z.pow_add_r by assumption.
  apply Z.bits_inj'. intros i Hi.
  rewrite u32_testbit, Z.lor_spec.
  destruct (Z.ltb_spec i 32) as [Hlt | Hge]; [reflexivity |].
  rewrite (testbit_above_u32 ti i Hti Hge), Z.pow2_bits_eqb by lia.
  cbn. symmetry. apply Z.eqb_neq. lia.
Qed.

Lemma add_flag_word_bit (ti : Z) :
  Z.testbit (u32 (Z.lor ti (Z.shiftl (IS_STR_VALID_UTF8 hdr) shift))) (k + shift)
  = true.
Proof.
  destruct Hflag as [-> Hk Hs Hw _]. fold shift in Hs, Hw.
  rewrite u32_testbit, Z.lor_spec, Z.shiftl_spec by lia.
  replace (k + shift - shift) with k by lia.
  rewrite Z.pow2_bits_true by assumption.
  rewrite orb_true_r, andb_true_r. apply Z.ltb_lt. exact Hw.
Qed.

Lemma zval_gc_flags_testbit (ti i : Z) :
  0 <= i ->
  Z.testbit (zval_gc_flags hdr ti) i
  = Z.testbit ti (i + shift) && Z.testbit (GC_FLAGS_MASK hdr) (i + shift).
Proof.
  intros Hi. unfold zval_gc_flags. fold shift.
  now rewrite Z.land_spec, !Z.shiftr_spec.
Qed.

Lemma zval_gc_flags_add (ti : Z) :
  zval_gc_flags hdr (Z.lor ti (2 ^ (k + shift)))
  = Z.lor (zval_gc_flags hdr ti) (IS_STR_VALID_UTF8 hdr).
Proof.
  pose proof Hflag as [Hf Hk Hs Hw Hm]. fold shift in Hs, Hw, Hm.
  apply Z.bits_inj'. intros i Hi.
  rewrite Z.lor_spec, !zval_gc_flags_testbit, Z.lor_spec by assumption.
  rewrite Hf, !Z.pow2_bits_eqb by lia.
  destruct (Z.eqb_spec k i) as [-> | Hne].
  - rewrite Z.eqb_refl, Hm, !orb_true_r. reflexivity.
  - replace (k + shift =? i + shift) with false
      by (symmetry; apply Z.eqb_neq; lia).
    now rewrite !orb_false_r.
Qed.

End FlagBit.

Section FlagRuns.

Variable env : environment.
Variable hdr : headers.
Variables (zs : ptr) (w : world) (s : zend_string).
Hypothesis Hzs : strings w !! zs = Some s.

Lemma run_GC_FLAGS :
  run env (GC_FLAGS hdr zs) w
  = Result [] (Normal (zval_gc_flags hdr (gc_type_info s)) w).
Proof. cbn. now rewrite Hzs. Qed.

Lemma run_GC_ADD_FLAGS (flags : Z) :
  run env (GC_ADD_FLAGS hdr zs flags) w
  = Result []
      (Normal tt
         (set_strings
            (<[zs := with_type_info
                       (u32 (Z.lor (gc_type_info s)
                                   (Z.shiftl flags (GC_FLAGS_SHIFT hdr)))) s]>
               (strings w)) w)).
Proof.
  unfold GC_ADD_FLAGS, GC_TYPE_INFO.
  cbn [bind run step]. rewrite Hzs. cbn [andthen out trace].
  rewrite after_nil. cbn [run step]. rewrite Hzs. reflexivity.
Qed.

Lemma run_is_known_valid_utf8 :
  run env (ext_php_rs_is_known_valid_utf8 hdr zs) w
  = Result []
      (Normal (to_bool (Z.land (zval_gc_flags hdr (gc_type_info s))
                               (IS_STR_VALID_UTF8 hdr))) w).
Proof. cbn. now rewrite Hzs. Qed.

Lemma run_set_known_valid_utf8 :
  run env (ext_php_rs_set_known_valid_utf8 hdr zs) w
  = if interned hdr s
    then Result [] (Normal tt w)
    else run env (GC_ADD_FLAGS hdr zs (IS_STR_VALID_UTF8 hdr)) w.
Proof.
  unfold ext_php_rs_set_known_valid_utf8, ZSTR_IS_INTERNED.
  rewrite run_bind, run_bind, run_GC_FLAGS.
  rewrite !andthen_normal, !after_nil. cbn [run].
  rewrite andthen_normal, after_nil.
  unfold interned. now destruct (to_bool _).
Qed.

End FlagRuns.

(** C8. On an interned string [ext_php_rs_set_known_valid_utf8] is a no-op:
    it returns in the state it started in.  On a string that is not
    interned it adds exactly the [IS_STR_VALID_UTF8] flag and changes
    nothing else: the final state is the initial one with the header word
    of that string replaced, the new word is the old one with the one bit
    of the flag set, and the flags read from it are the old flags together
    with [IS_STR_VALID_UTF8]. *)
Theorem set_known_valid_utf8_effect
    (env : environment) (hdr : headers) (zs : ptr) (w : world) (s : zend_string) :
  strings w !! zs = Some s ->
  (interned hdr s = true ->
     run env (ext_php_rs_set_known_valid_utf8 hdr zs) w = Result [] (Normal tt w))
  /\ (interned hdr s = false ->
      forall k,
        flag_bit hdr (IS_STR_VALID_UTF8 hdr) k ->
        0 <= gc_type_info s < 2 ^ 32 ->
        let ti' := Z.lor (gc_type_info s) (2 ^ (k + GC_FLAGS_SHIFT hdr)) in
        run env (ext_php_rs_set_known_valid_utf8 hdr zs) w
        = Result []
            (Normal tt
               (set_strings (<[zs := with_type_info ti' s]> (strings w)) w))
        /\ zval_gc_flags hdr ti'
           = Z.lor (zval_gc_flags hdr (gc_type_info s)) (IS_STR_VALID_UTF8 hdr)
        /\ (forall i, i <> k + GC_FLAGS_SHIFT hdr ->
              Z.testbit ti' i = Z.testbit (gc_type_info s) i)).
Proof.
  intros Hzs. split.
  - intros Hint. now rewrite (run_set_known_valid_utf8 env hdr zs w s Hzs), Hint.
  - intros Hint k Hflag Hti ti'.
    rewrite (run_set_known_valid_utf8 env hdr zs w s Hzs), Hint.
    rewrite (run_GC_ADD_FLAGS env hdr zs w s Hzs).
    rewrite (add_flag_word hdr k Hflag _ Hti). fold ti'.
    split; [reflexivity |]. split.
    + apply (zval_gc_flags_add hdr k Hflag).
    + intros i Hi. unfold ti'. rewrite Z.lor_spec.
      rewrite Z.pow2_bits_false by (intros Heq; apply Hi; symmetry; exact Heq).
      apply orb_false_r.
Qed.

(** C9. [ext_php_rs_is_known_valid_utf8] returns [true] exactly when the
    bit of [IS_STR_VALID_UTF8] is set in the GC flags of the string, and
    leaves the state as it is; on a string that is not interned,
    [ext_php_rs_set_known_valid_utf8] followed by
    [ext_php_rs_is_known_valid_utf8] returns [true]. *)
Theorem is_known_valid_utf8_reads_flag
    (env : environment) (hdr : headers) (k : Z)
    (zs : ptr) (w : world) (s : zend_string) :
  flag_bit hdr (IS_STR_VALID_UTF8 hdr) k ->
  strings w !! zs = Some s ->
  run env (ext_php_rs_is_known_valid_utf8 hdr zs) w
  = Result [] (Normal (Z.testbit (zval_gc_flags hdr (gc_type_info s)) k) w)
  /\ (interned hdr s = false ->
      exists w',
        run env (ext_php_rs_set_known_valid_utf8 hdr zs) w = Result [] (Normal tt w')
        /\ run env (ext_php_rs_is_known_valid_utf8 hdr zs) w'
           = Result [] (Normal true w')).
Proof.
  intros Hflag Hzs.
  assert (Hquery : forall w0 s0, strings w0 !! zs = Some s0 ->
            run env (ext_php_rs_is_known_valid_utf8 hdr zs) w0
            = Result [] (Normal (Z.testbit (zval_gc_flags hdr (gc_type_info s0)) k) w0)).
  { intros w0 s0 H0. rewrite (run_is_known_valid_utf8 env hdr zs w0 s0 H0).
    rewrite (flag_is_bit _ _ _ Hflag) at 1.
    now rewrite (to_bool_land_pow2 _ k (flag_index _ _ _ Hflag)). }
  split; [now apply Hquery |].
  intros Hint.
  rewrite (run_set_known_valid_utf8 env hdr zs w s Hzs), Hint.
  rewrite (run_GC_ADD_FLAGS env hdr zs w s Hzs).
  eexists. split; [reflexivity |].
  erewrite Hquery by (cbn; apply lookup_insert_eq).
  cbn [gc_type_info with_type_info].
  rewrite (zval_gc_flags_testbit hdr) by (exact (flag_index _ _ _ Hflag)).
  rewrite (add_flag_word_bit hdr k Hflag), (flag_in_mask _ _ _ Hflag).
  reflexivity.
Qed.

(** ** The shape of the exported functions *)

Lemma exported_silent (cfg : config) (hdr : headers)
    (n : export_name) (A : Type) (p : prog A) :
  exported cfg hdr n A p ->
  n <> exp_sapi_check_sg ->
  silent p.
Proof.
  intros [] Hsg; try contradiction;
    unfold ext_php_rs_executor_globals, ext_php_rs_process_globals,
      ext_php_rs_sapi_globals, ext_php_rs_file_globals,
      ext_php_rs_sapi_startup, ext_php_rs_sapi_shutdown,
      ext_php_rs_sapi_per_thread_init, ext_php_rs_set_known_valid_utf8;
    destruct cfg as [[] [] [] []]; cbn;
    repeat first [ shape_step | destruct (negb _) ].
Qed.




Lemma run_calls (env : environment) (cs : list extcall) (w : world) :
  run env (calls cs) w = call_in_order env cs w.
Proof.
  revert w. induction cs as [| c cs IH]; intros w; [reflexivity |].
  cbn. apply andthen_ext. intros _ w'. apply IH.
Qed.






(** ** The globals accessors *)

Lemma run_TSRMG_FAST_BULK (env : environment) (offset : world -> Z)
    (t : ctype) (w w' : world) (c : val) :
  env tsrm_get_ls_cache w = Normal c w' ->
  run env (TSRMG_FAST_BULK offset (pointer_to t)) w
  = Result [tsrm_get_ls_cache] (Normal (c + offset w') w').
Proof. intros Hc. cbn. unfold andthen; cbn. now rewrite Hc. Qed.

Lemma run_TSRMG_FAST_BULK_STATIC (env : environment) (offset : world -> Z)
    (t : ctype) (w : world) :
  run env (TSRMG_FAST_BULK_STATIC offset t) w
  = Result []
      match t with
      | pointer_to _ => Normal (TSRMLS_CACHE w + offset w) w
      | struct_type _ => Undefined
      end.
Proof. now destruct t. Qed.

(** What the four accessors return, by build: the address of the static
    structure without ZTS; with ZTS, on the path through
    [tsrm_get_ls_cache()], the cache pointer of the thread plus the value of
    the variable named in the source. *)
Lemma globals_accessors_paths (env : environment) (cfg : config) (hdr : headers)
    (w : world) :
  (ZTS cfg = false ->
     run env (ext_php_rs_executor_globals cfg hdr) w
     = Result [] (Normal (addr_executor_globals hdr) w)
     /\ run env (ext_php_rs_process_globals cfg hdr) w
        = Result [] (Normal (addr_core_globals hdr) w)
     /\ run env (ext_php_rs_sapi_globals cfg hdr) w
        = Result [] (Normal (addr_sapi_globals hdr) w)
     /\ run env (ext_php_rs_file_globals cfg hdr) w
        = Result [] (Normal (addr_file_globals hdr) w))
  /\ (ZTS cfg = true ->
      forall c w', env tsrm_get_ls_cache w = Normal c w' ->
      (ZEND_ENABLE_STATIC_TSRMLS_CACHE cfg = false ->
         run env (ext_php_rs_executor_globals cfg hdr) w
         = Result [tsrm_get_ls_cache] (Normal (c + executor_globals_offset w') w')
         /\ run env (ext_php_rs_process_globals cfg hdr) w
            = Result [tsrm_get_ls_cache] (Normal (c + core_globals_offset w') w')
         /\ run env (ext_php_rs_sapi_globals cfg hdr) w
            = Result [tsrm_get_ls_cache] (Normal (c + sapi_globals_offset w') w'))
      /\ run env (ext_php_rs_file_globals cfg hdr) w
         = Result [tsrm_get_ls_cache] (Normal (c + file_globals_id w') w')).
Proof.
  unfold ext_php_rs_executor_globals, ext_php_rs_process_globals,
    ext_php_rs_sapi_globals, ext_php_rs_file_globals.
  split.
  - intros ->. repeat split.
  - intros -> c w' Hc. split.
    + intros ->. repeat split; now apply run_TSRMG_FAST_BULK.
    + now apply run_TSRMG_FAST_BULK.
Qed.

(** C4 fails for [ext_php_rs_file_globals] in a ZTS build.  The thread of
    [sample_world] has its TSRM entry at 4096 and its file globals, the
    resource with id 6, in the block at 20480, which is where the engine's
    own [TSRMG_BULK(file_globals_id, ...)] arrives.  The accessor passes the
    id to the offset macro [TSRMG_FAST_BULK] and returns 4096 + 6, an
    address inside the TSRM entry.  Without ZTS it returns the address of
    the static structure. *)
Lemma file_globals_zts_misses_block :
  run sample_env (ext_php_rs_file_globals zts_build php_headers) sample_world
  = Result [tsrm_get_ls_cache] (Normal 4102 sample_world)
  /\ run sample_env
       (TSRMG_BULK php_headers file_globals_id
          (pointer_to (struct_type "php_file_globals"))) sample_world
     = Result [tsrm_get_ls_cache] (Normal 20480 sample_world)
  /\ run sample_env (ext_php_rs_file_globals nts_build php_headers) sample_world
     = Result [] (Normal (addr_file_globals php_headers) sample_world).
Proof. repeat split; vm_compute; reflexivity. Qed.

(** ** The statements at the sample data *)

Lemma php_flag_bit : flag_bit php_headers (IS_STR_VALID_UTF8 php_headers) 9.
Proof. split; cbn; first [reflexivity | lia]. Qed.

Lemma sample_env_startup_returns :
  Forall (returns_normally sample_env) (startup_sequence zts_build php_headers).
Proof. repeat constructor; intros w; now exists 0, w. Qed.


Lemma try_catch_adapters_witness :
  run sample_env (ext_php_rs_zend_try_catch 1 41 256) sample_world
  = Result [call_ptr 1 41]
      (Normal false
         (set_cells (<[256 := 42]> (cells sample_world)) sample_world))
  /\ run sample_env (ext_php_rs_zend_try_catch 2 41 256) sample_world
     = Result [call_ptr 2 41] (Normal true sample_world).
Proof.
  destruct (try_catch_adapters sample_env false 1 41 256 sample_world)
    as [Hnormal _].
  destruct (try_catch_adapters sample_env false 2 41 256 sample_world)
    as [_ Hbailout].
  split.
  - destruct (Hnormal 42 (set_bailout true sample_world) eq_refl)
      as (wf & Hrun & Hwf & _).
    + exists 7. reflexivity.
    + rewrite Hwf in Hrun. exact Hrun.
  - exact (Hbailout (set_bailout true sample_world) eq_refl).
Defined.


Lemma sapi_startup_fixed_order_witness :
  trace (run sample_env (ext_php_rs_sapi_startup zts_build php_headers) sample_world)
  = [signal 13 1; php_tsrm_startup; zend_signal_startup].
Proof.
  destruct (sapi_startup_fixed_order sample_env zts_build php_headers sample_world)
    as (_ & _ & _ & Hall).
  destruct (Hall sample_env_startup_returns) as [Htrace _].
  exact Htrace.
Defined.

Lemma sapi_shutdown_only_tsrm_shutdown_witness :
  run sample_env (ext_php_rs_sapi_shutdown zts_build) sample_world
  = Result [tsrm_shutdown] (Normal tt sample_world)
  /\ run sample_env (ext_php_rs_sapi_shutdown nts_build) sample_world
     = Result [] (Normal tt sample_world).
Proof.
  split.
  - exact (proj1 (sapi_shutdown_only_tsrm_shutdown sample_env zts_build sample_world)
             eq_refl).
  - exact (proj2 (sapi_shutdown_only_tsrm_shutdown sample_env nts_build sample_world)
             eq_refl).
Defined.

Lemma set_known_valid_utf8_effect_witness :
  run sample_env (ext_php_rs_set_known_valid_utf8 php_headers 16) sample_world
  = Result [] (Normal tt sample_world)
  /\ run sample_env (ext_php_rs_set_known_valid_utf8 php_headers 48) sample_world
     = Result []
         (Normal tt
            (set_strings (<[48 := with_type_info 534 plain_string]>
                            (strings sample_world)) sample_world)).
Proof.
  split.
  - exact (proj1 (set_known_valid_utf8_effect sample_env php_headers 16
                    sample_world interned_string eq_refl) eq_refl).
  - destruct (proj2 (set_known_valid_utf8_effect sample_env php_headers 48
                       sample_world plain_string eq_refl) eq_refl 9 php_flag_bit)
      as [Hrun _].
    + cbn. lia.
    + exact Hrun.
Defined.

Lemma is_known_valid_utf8_reads_flag_witness :
  run sample_env (ext_php_rs_is_known_valid_utf8 php_headers 48) sample_world
  = Result [] (Normal false sample_world)
  /\ exists w',
       run sample_env (ext_php_rs_set_known_valid_utf8 php_headers 48) sample_world
       = Result [] (Normal tt w')
       /\ run sample_env (ext_php_rs_is_known_valid_utf8 php_headers 48) w'
          = Result [] (Normal true w').
Proof.
  destruct (is_known_valid_utf8_reads_flag sample_env php_headers 9 48
              sample_world plain_string php_flag_bit eq_refl)
    as [Hquery Hround].
  split; [exact Hquery | exact (Hround eq_refl)].
Defined.

(** * Further properties of the shim *)

(** ** The SAPI lifecycle as a whole *)

Lemma call_in_order_app (env : environment) (cs cs' : list extcall) (w : world) :
  call_in_order env (cs ++ cs') w
  = andthen (call_in_order env cs w) (fun _ w' => call_in_order env cs' w').
Proof.
  revert w. induction cs as [| c cs IH]; intros w.
  - cbn [call_in_order app]. now rewrite andthen_normal, after_nil.
  - cbn [call_in_order app]. rewrite andthen_assoc.
    apply andthen_ext. intros _ w'. apply IH.
Qed.

Lemma run_sapi_startup (env : environment) (cfg : config) (hdr : headers)
    (w : world) :
  run env (ext_php_rs_sapi_startup cfg hdr) w
  = call_in_order env (startup_sequence cfg hdr) w.
Proof.
  unfold ext_php_rs_sapi_startup, startup_sequence.
  destruct (HAVE_SIGPIPE cfg), (ZTS cfg), (PHP_WIN32 cfg); cbn;
    repeat (apply andthen_ext; intros); reflexivity.
Qed.

Lemma run_sapi_per_thread_init (env : environment) (cfg : config) (w : world) :
  run env (ext_php_rs_sapi_per_thread_init cfg) w
  = call_in_order env (per_thread_sequence cfg) w.
Proof.
  unfold ext_php_rs_sapi_per_thread_init, per_thread_sequence.
  destruct (ZTS cfg), (PHP_WIN32 cfg); cbn;
    repeat (apply andthen_ext; intros); reflexivity.
Qed.

Lemma run_sapi_shutdown (env : environment) (cfg : config) (w : world) :
  run env (ext_php_rs_sapi_shutdown cfg) w
  = call_in_order env (shutdown_sequence cfg) w.
Proof.
  unfold ext_php_rs_sapi_shutdown, shutdown_sequence.
  destruct (ZTS cfg); reflexivity.
Qed.

(** X1. [ext_php_rs_sapi_per_thread_init] claims the resources of the thread
    only in a ZTS build: there the run is [ts_resource(0)], followed on
    Windows by the TSRMLS cache update, each value dropped, and it stops at
    the first routine that does not return; without ZTS it makes no call
    and returns in the state it started in. *)
Theorem sapi_per_thread_init_sequence
    (env : environment) (cfg : config) (w : world) :
  run env (ext_php_rs_sapi_per_thread_init cfg) w
  = call_in_order env (per_thread_sequence cfg) w
  /\ (ZTS cfg = false ->
      run env (ext_php_rs_sapi_per_thread_init cfg) w = Result [] (Normal tt w))
  /\ (ZTS cfg = true ->
      exists rest,
        trace (run env (ext_php_rs_sapi_per_thread_init cfg) w)
        = ts_resource 0 :: rest
        /\ (PHP_WIN32 cfg = false -> rest = [])).
Proof.
  split; [apply run_sapi_per_thread_init |]. split.
  - intros Hzts. rewrite run_sapi_per_thread_init.
    unfold per_thread_sequence. now rewrite Hzts.
  - intros Hzts. rewrite run_sapi_per_thread_init.
    unfold per_thread_sequence. rewrite Hzts.
    destruct (PHP_WIN32 cfg); cbn; unfold andthen; cbn;
      destruct (env (ts_resource 0) w) as [v w' | w' | s w' |]; cbn;
      eexists; (split; [reflexivity |]); try discriminate; reflexivity.
Qed.

(** X2. A whole lifecycle, [ext_php_rs_sapi_startup] then
    [ext_php_rs_sapi_per_thread_init] then [ext_php_rs_sapi_shutdown], is
    the three sequences of routines one after the other.  It is balanced:
    [tsrm_shutdown] is among the routines exactly when [php_tsrm_startup]
    is, that is in a ZTS build, and when every routine returns the calls
    made are exactly these routines. *)
Theorem sapi_lifecycle_balanced
    (env : environment) (cfg : config) (hdr : headers) (w : world) :
  let lifecycle :=
    startup_sequence cfg hdr ++ per_thread_sequence cfg ++ shutdown_sequence cfg in
  let p :=
    (ext_php_rs_sapi_startup cfg hdr ;;
     ext_php_rs_sapi_per_thread_init cfg ;;
     ext_php_rs_sapi_shutdown cfg) in
  run env p w = call_in_order env lifecycle w
  /\ (In php_tsrm_startup lifecycle <-> In tsrm_shutdown lifecycle)
  /\ (In tsrm_shutdown lifecycle <-> ZTS cfg = true)
  /\ (Forall (returns_normally env) lifecycle ->
      trace (run env p w) = lifecycle
      /\ exists w', out (run env p w) = Normal tt w').
Proof.
  intros lifecycle p.
  assert (Hrun : run env p w = call_in_order env lifecycle w).
  { unfold p, lifecycle. rewrite !run_bind, !call_in_order_app.
    rewrite run_sapi_startup. apply andthen_ext. intros _ w1.
    rewrite run_bind, run_sapi_per_thread_init, call_in_order_app.
    apply andthen_ext. intros _ w2.
    apply run_sapi_shutdown. }
  split; [exact Hrun |].
  assert (Hshut : In tsrm_shutdown lifecycle <-> ZTS cfg = true).
  { unfold lifecycle, startup_sequence, per_thread_sequence, shutdown_sequence.
    destruct (HAVE_SIGPIPE cfg), (ZTS cfg), (PHP_WIN32 cfg); cbn;
      intuition discriminate. }
  assert (Hstart : In php_tsrm_startup lifecycle <-> ZTS cfg = true).
  { unfold lifecycle, startup_sequence, per_thread_sequence, shutdown_sequence.
    destruct (HAVE_SIGPIPE cfg), (ZTS cfg), (PHP_WIN32 cfg); cbn;
      intuition discriminate. }
  split; [now rewrite Hshut, Hstart |].
  split; [exact Hshut |].
  rewrite Hrun. apply call_in_order_all_normal.
Qed.

(** ** The request method check *)

(** X3. [ext_php_rs_sapi_check_sg] prints exactly one line, whatever the
    request method is: among the calls made during the run there is exactly
    one [printf].  For a null request method it is the line that says NULL,
    without argument; otherwise it is the line with the [%s] conversion,
    with the request method as its one argument.  So a null pointer is
    never handed to [%s]. *)
Theorem sapi_check_sg_prints_one_line (env : environment) (w : world) :
  List.filter is_printf (trace (run env ext_php_rs_sapi_check_sg w))
  = [if SG_request_method w =? NULL
     then printf ("SG(request_info).request_method: NULL" ++ newline) []
     else printf ("SG(request_info).request_method: " ++ dquote ++ "%s"
                    ++ dquote ++ newline) [SG_request_method w]]
  /\ (forall format args,
        In (printf format args) (trace (run env ext_php_rs_sapi_check_sg w)) ->
        ~ In NULL args).
Proof.
  unfold ext_php_rs_sapi_check_sg.
  cbn [bind run step]. rewrite andthen_normal, after_nil.
  destruct (Z.eqb_spec (SG_request_method w) NULL) as [Hnull | Hset];
    rewrite run_call_void; cbn [trace].
  - split; [reflexivity |].
    intros format args [Heq | []]. injection Heq as _ <-. intros [].
  - split; [reflexivity |].
    intros format args [Heq | []]. injection Heq as _ <-.
    intros [Hin | []]. now apply Hset.
Qed.

(** ** The embed block *)

(** X4. [ext_php_rs_embed_callback] brackets the callback with
    [php_embed_init] and [php_embed_shutdown] and runs it with a jump buffer
    installed.  When the callback returns, its value is the result; when it
    bails out, the bailout is swallowed and the result is [NULL]; in both
    cases [php_embed_shutdown] still runs, with [EG(bailout)] cleared.  When
    the callback ends the process, [php_embed_shutdown] is not called. *)
Theorem embed_callback_brackets_callback
    (env : environment) (argc : Z) (argv callback ctx : ptr)
    (w w1 : world) (v0 : val) :
  env (php_embed_init argc argv) w = Normal v0 w1 ->
  let calls :=
    [php_embed_init argc argv; call_ptr callback ctx; php_embed_shutdown] in
  (forall v w2,
      env (call_ptr callback ctx) (set_bailout true w1) = Normal v w2 ->
      run env (ext_php_rs_embed_callback argc argv callback ctx) w
      = Result calls
          match env php_embed_shutdown (set_bailout false w2) with
          | Normal _ w3 => Normal v w3
          | LongJmp w3 => LongJmp w3
          | Exit s w3 => Exit s w3
          | Undefined => Undefined
          end)
  /\ (forall w2,
      env (call_ptr callback ctx) (set_bailout true w1) = LongJmp w2 ->
      run env (ext_php_rs_embed_callback argc argv callback ctx) w
      = Result calls
          match env php_embed_shutdown (set_bailout false w2) with
          | Normal _ w3 => Normal NULL w3
          | LongJmp w3 => LongJmp w3
          | Exit s w3 => Exit s w3
          | Undefined => Undefined
          end)
  /\ (forall s w2,
      env (call_ptr callback ctx) (set_bailout true w1) = Exit s w2 ->
      run env (ext_php_rs_embed_callback argc argv callback ctx) w
      = Result [php_embed_init argc argv; call_ptr callback ctx] (Exit s w2)).
Proof.
  intros Hinit calls. unfold calls.
  split; [| split].
  - intros v w2 Hcall. cbn. unfold andthen, catch; cbn.
    rewrite Hinit; cbn. unfold andthen; cbn. rewrite Hcall; cbn.
    destruct (env php_embed_shutdown (set_bailout false w2)); reflexivity.
  - intros w2 Hcall. cbn. unfold andthen, catch; cbn.
    rewrite Hinit; cbn. unfold andthen; cbn. rewrite Hcall; cbn.
    change (set_bailout false (set_bailout false w2)) with (set_bailout false w2).
    destruct (env php_embed_shutdown (set_bailout false w2)); reflexivity.
  - intros s w2 Hcall. cbn. unfold andthen, catch; cbn.
    rewrite Hinit; cbn. unfold andthen; cbn. rewrite Hcall. reflexivity.
Qed.

(** ** More on the try/catch adapters *)

Lemma void_normal_inv {A : Type} (o : outcome A) (w : world) :
  void o = Normal tt w -> exists a, o = Normal a w.
Proof.
  destruct o as [a w' | w' | s w' |]; cbn; intros H; try discriminate H.
  injection H as ->. now exists a.
Qed.

(** X5. Both adapters call the callback exactly once, whatever it does:
    among the calls made during the run there is exactly one call through
    a function pointer, the call of the callback at its context, and there
    is no second attempt.  Only a bailout is caught: when the callback ends
    the process the adapter ends the same way, and when the callback
    returns but [result] is not a mapped cell the store is undefined, as
    the adapters do not test the pointer. *)
Theorem adapter_calls_callback_once (env : environment) (first : bool)
    (callback ctx result : ptr) (w : world) :
  List.filter is_callback (trace (run env (adapter first callback ctx result) w))
  = [call_ptr callback ctx]
  /\ (forall s w2,
      env (call_ptr callback ctx) (set_bailout true w) = Exit s w2 ->
      out (run env (adapter first callback ctx result) w) = Exit s w2)
  /\ (forall v w2,
      env (call_ptr callback ctx) (set_bailout true w) = Normal v w2 ->
      cells w2 !! result = None ->
      out (run env (adapter first callback ctx result) w) = Undefined).
Proof.
  rewrite run_adapter. split; [reflexivity |]. split.
  - intros s w2 Hcall. cbn. now rewrite Hcall.
  - intros v w2 Hcall Hnone. cbn. now rewrite Hcall, Hnone.
Qed.

(** X8. A bailout does not cross an adapter.  When the callback of an outer
    adapter itself runs an inner adapter, and the callback of the inner one
    bails out, the inner adapter catches it and the outer adapter sees a
    callback that returned: it stores the value into its [*result] and
    returns [false]. *)
Theorem nested_adapter_contains_bailout (env : environment)
    (first1 first2 : bool) (cb1 ctx1 r1 cb2 ctx2 r2 : ptr) (w w2 : world) :
  behaves_as env (call_ptr cb1 ctx1) (adapter first2 cb2 ctx2 r2) ->
  env (call_ptr cb2 ctx2) (set_bailout true (set_bailout true w)) = LongJmp w2 ->
  is_Some (cells w2 !! r1) ->
  exists v wf,
    run env (adapter first1 cb1 ctx1 r1) w
    = Result [call_ptr cb1 ctx1] (Normal false wf)
    /\ cells wf = <[r1 := v]> (cells w2)
    /\ EG_bailout wf = saved_bailout first1 w.
Proof.
  intros Hcb Hinner [old Hold].
  specialize (Hcb (set_bailout true w)).
  rewrite run_adapter, Hinner in Hcb. cbn in Hcb.
  apply void_normal_inv in Hcb as [v Hcb].
  exists v. eexists. rewrite run_adapter, Hcb. cbn. rewrite Hold.
  split; [reflexivity |]. split; reflexivity.
Qed.

(** ** More on the UTF-8 flag *)

Lemma u32_range (x : Z) : 0 <= u32 x < 2 ^ 32.
Proof. unfold u32. apply Z.mod_pos_bound. reflexivity. Qed.

Lemma interned_add_flag (hdr : headers) (k : Z) (s : zend_string) :
  flag_bit hdr (IS_STR_VALID_UTF8 hdr) k ->
  Z.testbit (IS_STR_INTERNED hdr) k = false ->
  interned hdr
    (with_type_info (Z.lor (gc_type_info s) (2 ^ (k + GC_FLAGS_SHIFT hdr))) s)
  = interned hdr s.
Proof.
  intros Hflag Hdisjoint. unfold interned. cbn [gc_type_info with_type_info].
  rewrite (zval_gc_flags_add hdr k Hflag).
  f_equal. apply Z.bits_inj'. intros i Hi.
  rewrite !Z.land_spec, Z.lor_spec, (flag_is_bit _ _ _ Hflag).
  rewrite Z.pow2_bits_eqb by exact (flag_index _ _ _ Hflag).
  destruct (Z.eqb_spec k i) as [<- | _].
  - now rewrite Hdisjoint, !andb_false_r.
  - now rewrite orb_false_r.
Qed.

Lemma set_strings_twice (m m' : gmap Z zend_string) (w : world) :
  set_strings m (set_strings m' w) = set_strings m w.
Proof. reflexivity. Qed.

(** X9. [ext_php_rs_set_known_valid_utf8] is idempotent: marking a string
    twice ends exactly as marking it once, for an interned string and for
    any other.  The bit of [IS_STR_VALID_UTF8] is taken not to be part of
    [IS_STR_INTERNED]. *)
Theorem set_known_valid_utf8_idempotent
    (env : environment) (hdr : headers) (k : Z)
    (zs : ptr) (w : world) (s : zend_string) :
  flag_bit hdr (IS_STR_VALID_UTF8 hdr) k ->
  Z.testbit (IS_STR_INTERNED hdr) k = false ->
  strings w !! zs = Some s ->
  0 <= gc_type_info s < 2 ^ 32 ->
  run env (ext_php_rs_set_known_valid_utf8 hdr zs ;;
           ext_php_rs_set_known_valid_utf8 hdr zs) w
  = run env (ext_php_rs_set_known_valid_utf8 hdr zs) w.
Proof.
  intros Hflag Hdisjoint Hzs Hti.
  rewrite run_bind.
  rewrite (run_set_known_valid_utf8 env hdr zs w s Hzs).
  destruct (interned hdr s) eqn:Hint.
  - rewrite andthen_normal, after_nil.
    now rewrite (run_set_known_valid_utf8 env hdr zs w s Hzs), Hint.
  - rewrite (run_GC_ADD_FLAGS env hdr zs w s Hzs).
    rewrite andthen_normal, after_nil.
    rewrite (add_flag_word hdr k Hflag _ Hti).
    set (ti' := Z.lor (gc_type_info s) (2 ^ (k + GC_FLAGS_SHIFT hdr))).
    set (s' := with_type_info ti' s).
    set (w' := set_strings (<[zs := s']> (strings w)) w).
    assert (Hzs' : strings w' !! zs = Some s') by apply lookup_insert_eq.
    rewrite (run_set_known_valid_utf8 env hdr zs w' s' Hzs').
    unfold s' at 1, ti'. rewrite (interned_add_flag hdr k s Hflag Hdisjoint), Hint.
    rewrite (run_GC_ADD_FLAGS env hdr zs w' s' Hzs').
    assert (Hti' : 0 <= gc_type_info s' < 2 ^ 32).
    { cbn. unfold ti'. rewrite <- (add_flag_word hdr k Hflag _ Hti).
      apply u32_range. }
    rewrite (add_flag_word hdr k Hflag _ Hti').
    cbn [gc_type_info s' with_type_info].
    replace (Z.lor ti' (2 ^ (k + GC_FLAGS_SHIFT hdr))) with ti'
      by (unfold ti'; now rewrite <- Z.lor_assoc, Z.lor_diag).
    unfold w'. cbn [strings set_strings].
    rewrite insert_insert_eq, set_strings_twice.
    reflexivity.
Qed.

(** X10. [ext_php_rs_set_known_valid_utf8] on one string does not touch
    another: what [ext_php_rs_is_known_valid_utf8] answers for a string at a
    different address is the same after the call as before it, whatever the
    constants of the headers are. *)
Theorem set_known_valid_utf8_other_string
    (env : environment) (hdr : headers) (zs zs' : ptr)
    (w : world) (s : zend_string) :
  strings w !! zs = Some s ->
  zs <> zs' ->
  value_of (out (run env (ext_php_rs_set_known_valid_utf8 hdr zs ;;
                          ext_php_rs_is_known_valid_utf8 hdr zs') w))
  = value_of (out (run env (ext_php_rs_is_known_valid_utf8 hdr zs') w)).
Proof.
  intros Hzs Hne.
  rewrite run_bind, (run_set_known_valid_utf8 env hdr zs w s Hzs).
  destruct (interned hdr s).
  - now rewrite andthen_normal, after_nil.
  - rewrite (run_GC_ADD_FLAGS env hdr zs w s Hzs).
    rewrite andthen_normal, after_nil.
    cbn. rewrite lookup_insert_ne by exact Hne.
    now destruct (strings w !! zs').
Qed.

(** X11. What [ext_php_rs_is_known_valid_utf8] answers right after
    [ext_php_rs_set_known_valid_utf8] on the same string: [true] when the
    string is not interned, and for an interned string the flag it already
    had, so an interned string that was not marked stays unmarked. *)
Theorem is_known_after_set_known
    (env : environment) (hdr : headers) (k : Z)
    (zs : ptr) (w : world) (s : zend_string) :
  flag_bit hdr (IS_STR_VALID_UTF8 hdr) k ->
  strings w !! zs = Some s ->
  value_of (out (run env (ext_php_rs_set_known_valid_utf8 hdr zs ;;
                          ext_php_rs_is_known_valid_utf8 hdr zs) w))
  = Some (if interned hdr s
          then Z.testbit (zval_gc_flags hdr (gc_type_info s)) k
          else true).
Proof.
  intros Hflag Hzs.
  assert (Hquery : forall w0 s0, strings w0 !! zs = Some s0 ->
            run env (ext_php_rs_is_known_valid_utf8 hdr zs) w0
            = Result [] (Normal (Z.testbit (zval_gc_flags hdr (gc_type_info s0)) k) w0)).
  { intros w0 s0 H0. rewrite (run_is_known_valid_utf8 env hdr zs w0 s0 H0).
    rewrite (flag_is_bit _ _ _ Hflag) at 1.
    now rewrite (to_bool_land_pow2 _ k (flag_index _ _ _ Hflag)). }
  rewrite run_bind, (run_set_known_valid_utf8 env hdr zs w s Hzs).
  destruct (interned hdr s).
  - rewrite andthen_normal, after_nil. now rewrite (Hquery w s Hzs).
  - rewrite (run_GC_ADD_FLAGS env hdr zs w s Hzs).
    rewrite andthen_normal, after_nil.
    erewrite Hquery by (cbn; apply lookup_insert_eq).
    cbn [gc_type_info with_type_info out after value_of].
    rewrite (zval_gc_flags_testbit hdr) by (exact (flag_index _ _ _ Hflag)).
    now rewrite (add_flag_word_bit hdr k Hflag), (flag_in_mask _ _ _ Hflag).
Qed.

(** ** Output *)

Lemma trace_andthen {A B : Type} (r : result A) (f : A -> world -> result B) :
  trace (andthen r f)
  = trace r ++ match out r with
               | Normal a w => trace (f a w)
               | _ => []
               end.
Proof.
  unfold andthen. destruct (out r); cbn; try reflexivity;
    now rewrite app_nil_r.
Qed.

Lemma trace_catch {A : Type} (r : result A) (h : world -> result A) :
  trace (catch r h)
  = trace r ++ match out r with
               | LongJmp w => trace (h w)
               | _ => []
               end.
Proof.
  unfold catch. destruct (out r); cbn; try reflexivity;
    now rewrite app_nil_r.
Qed.

Lemma step_no_printf (env : environment) (o : op) (w : world) :
  is_output o = false ->
  Forall (fun c => is_printf c = false) (trace (step env o w)).
Proof.
  intros Ho. destruct o as [c | zs | zs v | addr | addr v | x | t p |]; cbn.
  - constructor; [| constructor]. now destruct c.
  - destruct (strings w !! zs); constructor.
  - destruct (strings w !! zs); constructor.
  - destruct (cells w !! addr); constructor.
  - destruct (cells w !! addr); constructor.
  - constructor.
  - destruct t; constructor.
  - constructor.
Qed.

Lemma silent_no_printf (env : environment) (A : Type) (p : prog A) (w : world) :
  silent p ->
  Forall (fun c => is_printf c = false) (trace (run env p w)).
Proof.
  revert w.
  induction p as [A a | A o k IH | A C first body IHb handler IHh k IH];
    intros w Hsilent.
  - constructor.
  - destruct Hsilent as [Ho Hk]. cbn [run]. rewrite trace_andthen.
    apply Forall_app. split; [now apply step_no_printf |].
    destruct (out (step env o w)); try constructor. now apply IH.
  - destruct Hsilent as (Hb & Hh & Hk). cbn [run].
    rewrite trace_andthen, trace_catch.
    apply Forall_app. split.
    + apply Forall_app. split; [now apply IHb |].
      destruct (out (run env body _)); try constructor. now apply IHh.
    + destruct (out (catch _ _)); try constructor. now apply IH.
Qed.

(** X12. No exported function other than [ext_php_rs_sapi_check_sg] ever
    prints: in every build, environment and state, and at all arguments,
    none of the calls that leave the shim during its run is a [printf]. *)
Theorem exports_never_print (env : environment) (cfg : config) (hdr : headers)
    (n : export_name) (A : Type) (p : prog A) (w : world) :
  exported cfg hdr n A p ->
  n <> exp_sapi_check_sg ->
  Forall (fun c => is_printf c = false) (trace (run env p w)).
Proof.
  intros Hexp Hn. apply silent_no_printf.
  exact (exported_silent cfg hdr n A p Hexp Hn).
Qed.

(** ** Read-only functions *)

(** X14. The functions that only look something up (the flag query, the
    build id, the four globals accessors and the SAPI module accessor)
    never change the state: as long as [tsrm_get_ls_cache()] returns
    without changing anything, a run either returns in the state it
    started in or is undefined (the flag query through a pointer that is
    not mapped, an accessor whose cast has no result); it never bails out
    or exits, and [tsrm_get_ls_cache] is the only call it can make. *)
Theorem accessors_read_only (env : environment) (cfg : config) (hdr : headers)
    (n : export_name) (A : Type) (p : prog A) (w : world) :
  exported cfg hdr n A p ->
  accessor n = true ->
  (exists c, env tsrm_get_ls_cache w = Normal c w) ->
  (out (run env p w) = Undefined \/ exists a, out (run env p w) = Normal a w)
  /\ Forall (fun c => c = tsrm_get_ls_cache) (trace (run env p w)).
Proof.
  intros Hexp Hacc [c Hcache].
  destruct Hexp; try discriminate Hacc;
    unfold ext_php_rs_executor_globals, ext_php_rs_process_globals,
      ext_php_rs_sapi_globals, ext_php_rs_file_globals;
    try (destruct cfg as [[] [] ? ?]; cbn [ZTS ZEND_ENABLE_STATIC_TSRMLS_CACHE]);
    try rewrite (run_TSRMG_FAST_BULK env _ _ w w c Hcache);
    try rewrite run_TSRMG_FAST_BULK_STATIC;
    try (split; [first [right; eexists; reflexivity | now left]
                | repeat constructor]).
  all: cbn; destruct (strings w !! zs); cbn;
    (split; [first [right; eexists; reflexivity | now left] | constructor]).
Qed.

(** ** The further statements at the sample data *)

Lemma sample_env_lifecycle_returns :
  Forall (returns_normally sample_env)
    (startup_sequence zts_build php_headers
     ++ per_thread_sequence zts_build ++ shutdown_sequence zts_build).
Proof. repeat constructor; intros w; now exists 0, w. Qed.

Lemma nested_callback_runs_adapter (ctx : ptr) :
  behaves_as nested_env (call_ptr 3 ctx) (adapter false 2 ctx 256).
Proof.
  intros w. rewrite run_adapter.
  change (nested_env (call_ptr 3 ctx) w)
    with (match out (run sample_env (adapter false 2 ctx 256) w) with
          | Normal b w' => Normal (if b then 1 else 0) w'
          | LongJmp w' => LongJmp w'
          | Exit s w' => Exit s w'
          | Undefined => Undefined
          end).
  rewrite run_adapter. reflexivity.
Qed.

Lemma sapi_per_thread_init_sequence_witness :
  run sample_env (ext_php_rs_sapi_per_thread_init nts_build) sample_world
  = Result [] (Normal tt sample_world)
  /\ exists rest,
       trace (run sample_env (ext_php_rs_sapi_per_thread_init zts_build) sample_world)
       = ts_resource 0 :: rest
       /\ rest = [].
Proof.
  split.
  - destruct (sapi_per_thread_init_sequence sample_env nts_build sample_world)
      as (_ & Hnts & _).
    exact (Hnts eq_refl).
  - destruct (sapi_per_thread_init_sequence sample_env zts_build sample_world)
      as (_ & _ & Hzts).
    destruct (Hzts eq_refl) as (rest & Htrace & Hrest).
    exists rest. split; [exact Htrace | exact (Hrest eq_refl)].
Defined.

Lemma sapi_lifecycle_balanced_witness :
  trace (run sample_env
           (ext_php_rs_sapi_startup zts_build php_headers ;;
            ext_php_rs_sapi_per_thread_init zts_build ;;
            ext_php_rs_sapi_shutdown zts_build) sample_world)
  = [signal 13 1; php_tsrm_startup; zend_signal_startup; ts_resource 0;
     tsrm_shutdown].
Proof.
  destruct (sapi_lifecycle_balanced sample_env zts_build php_headers sample_world)
    as (_ & _ & _ & Hall).
  destruct (Hall sample_env_lifecycle_returns) as [Htrace _].
  exact Htrace.
Defined.

Lemma sapi_check_sg_prints_one_line_witness :
  List.filter is_printf (trace (run sample_env ext_php_rs_sapi_check_sg sample_world))
  = [printf ("SG(request_info).request_method: NULL" ++ newline) []]
  /\ List.filter is_printf
       (trace (run sample_env ext_php_rs_sapi_check_sg request_world))
     = [printf ("SG(request_info).request_method: " ++ dquote ++ "%s"
                  ++ dquote ++ newline) [12288]]
  /\ ~ In NULL [12288].
Proof.
  split; [| split].
  - exact (proj1 (sapi_check_sg_prints_one_line sample_env sample_world)).
  - exact (proj1 (sapi_check_sg_prints_one_line sample_env request_world)).
  - apply (proj2 (sapi_check_sg_prints_one_line sample_env request_world)
             ("SG(request_info).request_method: " ++ dquote ++ "%s"
                ++ dquote ++ newline)%string).
    left. reflexivity.
Defined.

Lemma embed_callback_brackets_callback_witness :
  run sample_env (ext_php_rs_embed_callback 0 0 1 41) sample_world
  = Result [php_embed_init 0 0; call_ptr 1 41; php_embed_shutdown]
           (Normal 42 sample_world)
  /\ run sample_env (ext_php_rs_embed_callback 0 0 2 41) sample_world
     = Result [php_embed_init 0 0; call_ptr 2 41; php_embed_shutdown]
              (Normal NULL sample_world).
Proof.
  split.
  - exact (proj1 (embed_callback_brackets_callback sample_env 0 0 1 41
                    sample_world sample_world 0 eq_refl)
             42 (set_bailout true sample_world) eq_refl).
  - exact (proj1 (proj2 (embed_callback_brackets_callback sample_env 0 0 2 41
                           sample_world sample_world 0 eq_refl))
             (set_bailout true sample_world) eq_refl).
Defined.

Lemma adapter_calls_callback_once_witness :
  List.filter is_callback
    (trace (run sample_env (ext_php_rs_zend_try_catch 1 41 999) sample_world))
  = [call_ptr 1 41]
  /\ out (run sample_env (ext_php_rs_zend_try_catch 1 41 999) sample_world)
     = Undefined.
Proof.
  destruct (adapter_calls_callback_once sample_env false 1 41 999 sample_world)
    as (Htrace & _ & Hunmapped).
  split; [exact Htrace |].
  exact (Hunmapped 42 (set_bailout true sample_world) eq_refl eq_refl).
Defined.

Lemma nested_adapter_contains_bailout_witness :
  exists v wf,
    run nested_env (ext_php_rs_zend_try_catch 3 41 256) sample_world
    = Result [call_ptr 3 41] (Normal false wf)
    /\ cells wf !! 256 = Some v.
Proof.
  destruct (nested_adapter_contains_bailout nested_env false false
              3 41 256 2 41 256 sample_world
              (set_bailout true (set_bailout true sample_world))
              (nested_callback_runs_adapter 41) eq_refl)
    as (v & wf & Hrun & Hcells & _).
  - exists 7. reflexivity.
  - exists v, wf. split; [exact Hrun |].
    rewrite Hcells. apply lookup_insert_eq.
Defined.

Lemma set_known_valid_utf8_idempotent_witness :
  run sample_env (ext_php_rs_set_known_valid_utf8 php_headers 48 ;;
                  ext_php_rs_set_known_valid_utf8 php_headers 48) sample_world
  = run sample_env (ext_php_rs_set_known_valid_utf8 php_headers 48) sample_world.
Proof.
  apply (set_known_valid_utf8_idempotent sample_env php_headers 9 48
           sample_world plain_string php_flag_bit eq_refl eq_refl).
  cbn. lia.
Defined.

Lemma set_known_valid_utf8_other_string_witness :
  value_of (out (run sample_env
                   (ext_php_rs_set_known_valid_utf8 php_headers 48 ;;
                    ext_php_rs_is_known_valid_utf8 php_headers 16) sample_world))
  = value_of (out (run sample_env
                     (ext_php_rs_is_known_valid_utf8 php_headers 16) sample_world)).
Proof.
  apply (set_known_valid_utf8_other_string sample_env php_headers 48 16
           sample_world plain_string eq_refl).
  discriminate.
Defined.

Lemma is_known_after_set_known_witness :
  value_of (out (run sample_env
                   (ext_php_rs_set_known_valid_utf8 php_headers 16 ;;
                    ext_php_rs_is_known_valid_utf8 php_headers 16) sample_world))
  = Some false
  /\ value_of (out (run sample_env
                      (ext_php_rs_set_known_valid_utf8 php_headers 48 ;;
                       ext_php_rs_is_known_valid_utf8 php_headers 48) sample_world))
     = Some true.
Proof.
  split.
  - exact (is_known_after_set_known sample_env php_headers 9 16
             sample_world interned_string php_flag_bit eq_refl).
  - exact (is_known_after_set_known sample_env php_headers 9 48
             sample_world plain_string php_flag_bit eq_refl).
Defined.

Lemma exports_never_print_witness :
  Forall (fun c => is_printf c = false)
    (trace (run sample_env (ext_php_rs_sapi_startup zts_build php_headers)
              sample_world)).
Proof.
  apply (exports_never_print sample_env zts_build php_headers
           exp_sapi_startup unit (ext_php_rs_sapi_startup zts_build php_headers)
           sample_world (exported_sapi_startup zts_build php_headers)).
  discriminate.
Defined.

Lemma accessors_read_only_witness :
  (out (run sample_env (ext_php_rs_file_globals zts_build php_headers) sample_world)
   = Undefined
   \/ exists a,
        out (run sample_env (ext_php_rs_file_globals zts_build php_headers)
               sample_world)
        = Normal a sample_world)
  /\ Forall (fun c => c = tsrm_get_ls_cache)
       (trace (run sample_env (ext_php_rs_file_globals zts_build php_headers)
                 sample_world)).
Proof.
  apply (accessors_read_only sample_env zts_build php_headers
           exp_file_globals ptr (ext_php_rs_file_globals zts_build php_headers)
           sample_world (exported_file_globals zts_build php_headers) eq_refl).
  exists 4096. reflexivity.
Defined.
